(** * gilboost: the packaging script [setup.py]

    The repository's only source file is a straight-line Python script:
    two [from ... import ...] statements followed by one call of
    [setuptools.setup] with five keyword arguments.  The script is embedded
    as a computation in a small monad that records the calls made to the
    packaging tool and propagates the exceptions the interpreter or the
    tool may raise. *)

From Stdlib Require Import String Ascii List Bool Arith Lia.
Import ListNotations.
Local Open Scope string_scope.
Local Open Scope list_scope.
Set Warnings "-register-all".

(** ** Values built by the script *)

(** [setuptools_rust.Binding]: the enumeration imported on line 2; the
    script only mentions its member [PyO3]. *)
Inductive Binding : Type :=
| PyO3
| RustCPython
| NoBinding
| Exec.

(** The Python values the script constructs.  An instance of
    [setuptools_rust.RustExtension] is represented by the positional and
    keyword arguments its constructor was called with. *)
Inductive value : Type :=
| VStr (s : string)
| VBool (b : bool)
| VList (items : list value)
| VBinding (b : Binding)
| VRustExtension (args : list value) (kwargs : list (string * value)).

Definition kwargs : Type := list (string * value).

(** Keyword lookup, as in [kwargs.get(key)]. *)
Fixpoint kwarg (key : string) (kw : kwargs) : option value :=
  match kw with
  | [] => None
  | (k, v) :: rest => if String.eqb k key then Some v else kwarg key rest
  end.

Definition keywords (kw : kwargs) : list string := map fst kw.

(** The constructor call [RustExtension(target, binding=...)]: positional
    arguments first, keyword arguments second. *)
Definition RustExtension (args : list value) (kw : kwargs) : value :=
  VRustExtension args kw.

(** [target] is the first positional parameter of [RustExtension]: the
    dotted name of the extension module to build. *)
Definition ext_target (v : value) : option string :=
  match v with
  | VRustExtension (VStr t :: _) _ => Some t
  | _ => None
  end.

Definition ext_binding (v : value) : option value :=
  match v with
  | VRustExtension _ kw => kwarg "binding" kw
  | _ => None
  end.

(** ** The interpreter's world *)

(** A Python exception as the script's caller sees it: its class and its
    message. *)
Record pyexc : Type := mkExc {
  exc_class : string;
  exc_msg : string
}.

(** What an evaluation of the script can depend on: which names the
    installed distributions export, what a failing import statement
    raises, how the packaging tool reacts to a call of [setup], and the
    process inputs (command line, environment variables).

    [import_exception env module names] is the exception that comes out
    of [from module import names] when the statement fails: whatever the
    import machinery or the module's own initialisation raised (a
    ModuleNotFoundError naming [module] or one of its dependencies, an
    ImportError for a missing name, or any other exception). *)
Record Env : Type := mkEnv {
  importable : string -> string -> bool;
  import_exception : string -> list string -> pyexc;
  setup_raises : list value -> kwargs -> option string;
  argv : list string;
  environ : list (string * string)
}.

(** Exceptions, by the place that raises them. *)
Inductive exn : Type :=
| ImportFailure (module : string) (exc : pyexc)
| CalleeError (callee : string) (msg : string)
| ScriptError (msg : string).

(** [ScriptError] stands for a [raise] or a failed [assert] written in the
    script itself; the other two come from outside it.  [ImportFailure
    module exc]: the statement importing from [module] let [exc]
    through.  [CalleeError callee msg]: [callee] raised. *)
Definition own_error (e : exn) : bool :=
  match e with
  | ScriptError _ => true
  | _ => false
  end.

(** Observable events: calls that leave the script. *)
Inductive event : Type :=
| Called (callee : string) (args : list value) (kw : kwargs).

(** ** The script monad: reader of [Env], writer of events, errors *)

Module Script.

Definition M (A : Type) : Type := Env -> list event * (exn + A).

Definition ret {A} (a : A) : M A := fun _ => ([], inr a).

Definition bind {A B} (m : M A) (f : A -> M B) : M B :=
  fun env =>
    match m env with
    | (tr, inl e) => (tr, inl e)
    | (tr, inr a) =>
        let (tr', r) := f a env in (tr ++ tr', r)
    end.

Definition raise {A} (msg : string) : M A :=
  fun _ => ([], inl (ScriptError msg)).

(** [from module import n1, n2, ...]: when the statement fails, the
    exception raised inside it propagates unchanged. *)
Definition import_from (module : string) (names : list string) : M unit :=
  fun env =>
    if forallb (importable env module) names
    then ([], inr tt)
    else ([], inl (ImportFailure module (import_exception env module names))).

(** A call of [setup] with positional arguments [args] and keyword
    arguments [kw]: control passes to the packaging tool. *)
Definition setup (args : list value) (kw : kwargs) : M unit :=
  fun env =>
    ([Called "setup" args kw],
     match setup_raises env args kw with
     | None => inr tt
     | Some msg => inl (CalleeError "setup" msg)
     end).

End Script.

Notation "m1 ;; m2" := (Script.bind m1 (fun _ => m2))
  (at level 61, right associativity).

(** ** setup.py *)

(** Lines 5 to 9: the keyword arguments of the call. *)
Definition setup_kwargs : kwargs :=
  [ ("name", VStr "gilboost");
    ("version", VStr "0.1.0");
    ("rust_extensions",
       VList [RustExtension [VStr "gilboost"] [("binding", VBinding PyO3)]]);
    ("zip_safe", VBool false);
    ("python_requires", VStr "=3.12.0") ].

(** Lines 1 to 10. *)
Definition setup_py : Script.M unit :=
  Script.import_from "setuptools" ["setup"] ;;
  Script.import_from "setuptools_rust" ["Binding"; "RustExtension"] ;;
  Script.setup [] setup_kwargs.

Definition trace (env : Env) : list event := fst (setup_py env).
Definition outcome (env : Env) : exn + unit := snd (setup_py env).

(** The argument lists of the calls of [setup] made during a run. *)
Fixpoint calls_of (callee : string) (tr : list event)
  : list (list value * kwargs) :=
  match tr with
  | [] => []
  | Called c args kw :: rest =>
      if String.eqb c callee
      then (args, kw) :: calls_of callee rest
      else calls_of callee rest
  end.

Definition setup_calls (env : Env) : list (list value * kwargs) :=
  calls_of "setup" (trace env).

(** Both import statements find what they name. *)
Definition imports_ok (env : Env) : bool :=
  importable env "setuptools" "setup"
  && (importable env "setuptools_rust" "Binding"
      && importable env "setuptools_rust" "RustExtension").

(** The exception of an import that does not find [module]. *)
Definition module_not_found (module : string) : pyexc :=
  mkExc "ModuleNotFoundError" ("No module named '" ++ module ++ "'").

(** Two sample worlds: one with both distributions installed and a tool
    that accepts the call, one with nothing installed. *)
Definition env_ok : Env :=
  mkEnv (fun _ _ => true) (fun module _ => module_not_found module)
        (fun _ _ => None) ["setup.py"; "build"] [].

Definition env_bare : Env :=
  mkEnv (fun _ _ => false) (fun module _ => module_not_found module)
        (fun _ _ => None) ["setup.py"] [("HOME", "/root")].

(** A world with setuptools installed and setuptools_rust absent. *)
Definition env_no_rust : Env :=
  mkEnv (fun module _ => String.eqb module "setuptools")
        (fun module _ => module_not_found module)
        (fun _ _ => None) ["setup.py"; "build"] [].

(** A world whose setuptools is present but fails while it initialises:
    it imports distutils, which the interpreter no longer ships. *)
Definition env_no_distutils : Env :=
  mkEnv (fun module _ => negb (String.eqb module "setuptools"))
        (fun _ _ => module_not_found "distutils")
        (fun _ _ => None) ["setup.py"; "build"] [].

(** ** What the declared distribution installs

    setuptools_rust builds one native module per descriptor of
    [rust_extensions] and installs it under the descriptor's [target],
    the module's dotted import name.  The call declares no packages and
    no pure-Python modules, so these are all the modules an installation
    of the distribution provides. *)

Fixpoint extension_targets (exts : list value) : list string :=
  match exts with
  | [] => []
  | ext :: rest =>
      match ext_target ext with
      | Some t => t :: extension_targets rest
      | None => extension_targets rest
      end
  end.

Definition extension_modules (kw : kwargs) : list string :=
  match kwarg "rust_extensions" kw with
  | Some (VList exts) => extension_targets exts
  | _ => []
  end.

Fixpoint has_dot (s : string) : bool :=
  match s with
  | EmptyString => false
  | String c s' => Ascii.eqb c "."%char || has_dot s'
  end.

(** Does [import m] find a module once the distribution declared by [kw]
    is installed?  A dotted name also needs its parent packages, and the
    distribution provides none. *)
Definition import_finds (kw : kwargs) (m : string) : bool :=
  negb (has_dot m) && existsb (String.eqb m) (extension_modules kw).

(** ** Version specifiers (PEP 440)

    The packaging tool reads the [python_requires] string as a PEP 440
    version specifier: a comparison operator followed by a version.  The
    fragment below covers one clause over release-only versions
    ([N(.N)*]), which is all the script's string can exercise. *)

Module Pep440.

Inductive operator : Type :=
| Arbitrary      (* === *)
| Compatible     (* ~=  *)
| Equal          (* ==  *)
| NotEqual       (* !=  *)
| LessEq         (* <=  *)
| GreaterEq      (* >=  *)
| Less           (* <   *)
| Greater.       (* >   *)

(** The comparison operators, longest spelling first. *)
Definition operators : list (string * operator) :=
  [ ("===", Arbitrary); ("~=", Compatible); ("==", Equal);
    ("!=", NotEqual); ("<=", LessEq); (">=", GreaterEq);
    ("<", Less); (">", Greater) ].

(** [strip p s] is the rest of [s] after its prefix [p], if [p] is one. *)
Fixpoint strip (p s : string) : option string :=
  match p, s with
  | EmptyString, _ => Some s
  | String a p', String b s' =>
      if Ascii.eqb a b then strip p' s' else None
  | String _ _, EmptyString => None
  end.

Fixpoint parse_operator_in (ops : list (string * operator)) (s : string)
  : option (operator * string) :=
  match ops with
  | [] => None
  | (p, op) :: ops' =>
      match strip p s with
      | Some rest => Some (op, rest)
      | None => parse_operator_in ops' s
      end
  end.

Definition is_digit (c : ascii) : bool :=
  Nat.leb 48 (nat_of_ascii c) && Nat.leb (nat_of_ascii c) 57.

(** Release segments: decimal numbers separated by dots. *)
Fixpoint parse_release_from (cur : option nat) (s : string)
  : option (list nat) :=
  match s with
  | EmptyString =>
      match cur with
      | Some n => Some [n]
      | None => None
      end
  | String c s' =>
      if is_digit c then
        let d := nat_of_ascii c - 48 in
        match cur with
        | Some n => parse_release_from (Some (10 * n + d)) s'
        | None => parse_release_from (Some d) s'
        end
      else if Ascii.eqb c "."%char then
        match cur with
        | Some n => option_map (cons n) (parse_release_from None s')
        | None => None
        end
      else None
  end.

Definition parse_release : string -> option (list nat) :=
  parse_release_from None.

(** A clause is an operator followed by a version.  The version after
    [===] is free text; after any other operator it must be a release,
    of two segments or more after [~=]. *)
Definition parse_specifier (s : string) : option (operator * string) :=
  match parse_operator_in operators s with
  | Some (Arbitrary, w) => Some (Arbitrary, w)
  | Some (Compatible, w) =>
      match parse_release w with
      | Some (_ :: _ :: _) => Some (Compatible, w)
      | _ => None
      end
  | Some (op, w) =>
      match parse_release w with
      | Some _ => Some (op, w)
      | None => None
      end
  | None => None
  end.

Definition all_zero (l : list nat) : bool := forallb (Nat.eqb 0) l.

(** Order on releases; a missing segment counts as zero. *)
Fixpoint compare_release (a b : list nat) : comparison :=
  match a, b with
  | [], _ => if all_zero b then Eq else Lt
  | _, [] => if all_zero a then Eq else Gt
  | x :: a', y :: b' =>
      match Nat.compare x y with
      | Eq => compare_release a' b'
      | c => c
      end
  end.

Definition is_eq (c : comparison) : bool :=
  match c with Eq => true | _ => false end.
Definition is_lt (c : comparison) : bool :=
  match c with Lt => true | _ => false end.
Definition is_gt (c : comparison) : bool :=
  match c with Gt => true | _ => false end.

Definition satisfies (op : operator) (v w : list nat) : bool :=
  let c := compare_release v w in
  match op with
  | Arbitrary => false
  | Equal => is_eq c
  | NotEqual => negb (is_eq c)
  | LessEq => negb (is_gt c)
  | GreaterEq => negb (is_lt c)
  | Less => is_lt c
  | Greater => is_gt c
  | Compatible =>
      negb (is_lt c)
      && is_eq (compare_release
                  (firstn (length w - 1) v) (removelast w))
  end.

(** Does specifier [spec] admit the version written [candidate]?
    [None]: [spec] (or [candidate]) is not well formed, and the tool
    raises instead of answering. *)
Definition admits (spec candidate : string) : option bool :=
  match parse_specifier spec with
  | None => None
  | Some (Arbitrary, w) => Some (String.eqb w candidate)
  | Some (op, w) =>
      match parse_release candidate, parse_release w with
      | Some v, Some r => Some (satisfies op v r)
      | _, _ => None
      end
  end.

(** The exact pin of version [v]: the clause [==v]. *)
Definition exact_pin (v : string) : string := "==" ++ v.

End Pep440.

(** The string the script passes as [python_requires]. *)
Definition python_requires : option string :=
  match kwarg "python_requires" setup_kwargs with
  | Some (VStr s) => Some s
  | _ => None
  end.

(** A world whose packaging tool validates [python_requires] and rejects
    the call when the string is not a well-formed specifier. *)
Definition env_strict : Env :=
  mkEnv (fun _ _ => true)
        (fun module _ => module_not_found module)
        (fun _ kw =>
           match kwarg "python_requires" kw with
           | Some (VStr s) =>
               match Pep440.parse_specifier s with
               | Some _ => None
               | None => Some "python_requires must be a valid specifier"
               end
           | _ => None
           end)
        ["setup.py"; "install"] [("PATH", "/usr/bin")].

(** Did the run end in an exception raised by the script's own code? *)
Definition failed_in_script (r : exn + unit) : bool :=
  match r with
  | inl e => own_error e
  | inr _ => false
  end.

(** The five keywords of the call, in source order. *)
Definition declared_keywords : list string :=
  ["name"; "version"; "rust_extensions"; "zip_safe"; "python_requires"].

(** * Properties *)

(** ** How a run unfolds *)

Ltac run_script env :=
  unfold trace, outcome, setup_py, Script.bind, Script.import_from,
    Script.setup, imports_ok; simpl;
  destruct (importable env "setuptools" "setup");
  destruct (importable env "setuptools_rust" "Binding");
  destruct (importable env "setuptools_rust" "RustExtension");
  simpl.

Lemma trace_imports_ok (env : Env) :
  imports_ok env = true -> trace env = [Called "setup" [] setup_kwargs].
Proof. run_script env; intros H; try discriminate H; reflexivity. Qed.

Lemma trace_imports_fail (env : Env) :
  imports_ok env = false -> trace env = [].
Proof. run_script env; intros H; try discriminate H; reflexivity. Qed.

Lemma outcome_imports_ok (env : Env) :
  imports_ok env = true ->
  outcome env =
    match setup_raises env [] setup_kwargs with
    | None => inr tt
    | Some msg => inl (CalleeError "setup" msg)
    end.
Proof.
  run_script env; intros H; try discriminate H.
  destruct (setup_raises env [] setup_kwargs); reflexivity.
Qed.

Lemma outcome_imports_fail (env : Env) :
  imports_ok env = false ->
  outcome env
  = inl (ImportFailure "setuptools"
           (import_exception env "setuptools" ["setup"]))
  \/ outcome env
     = inl (ImportFailure "setuptools_rust"
              (import_exception env "setuptools_rust"
                 ["Binding"; "RustExtension"])).
Proof.
  run_script env; intros H; try discriminate H; auto.
Qed.

Lemma setup_calls_cases (env : Env) :
  setup_calls env = [] \/ setup_calls env = [([], setup_kwargs)].
Proof.
  unfold setup_calls.
  destruct (imports_ok env) eqn:E.
  - right. rewrite (trace_imports_ok env E). reflexivity.
  - left. rewrite (trace_imports_fail env E). reflexivity.
Qed.

Lemma passed_to_setup (env : Env) (args : list value) (kw : kwargs) :
  In (args, kw) (setup_calls env) -> args = [] /\ kw = setup_kwargs.
Proof.
  destruct (setup_calls_cases env) as [-> | ->]; simpl.
  - intros [].
  - intros [H | []]. inversion H. split; reflexivity.
Qed.

Lemma setup_calls_env_ok : setup_calls env_ok = [([], setup_kwargs)].
Proof. reflexivity. Qed.

Lemma setup_calls_env_strict : setup_calls env_strict = [([], setup_kwargs)].
Proof. reflexivity. Qed.

(** ** Specifier model: sanity *)

(** The clause [==3.12.0] is a pin: it admits a release exactly when the
    release equals 3.12.0 (up to trailing zero segments). *)
Lemma pin_3_12_0_admits (v : string) (r : list nat) :
  Pep440.parse_release v = Some r ->
  Pep440.admits (Pep440.exact_pin "3.12.0") v
  = Some (Pep440.is_eq (Pep440.compare_release r [3; 12; 0])).
Proof.
  intros H. unfold Pep440.admits. simpl Pep440.parse_specifier.
  cbv iota beta. rewrite H. reflexivity.
Qed.

Example pin_3_12_0_samples :
  map (Pep440.admits (Pep440.exact_pin "3.12.0"))
      ["3.12.0"; "3.12.1"; "3.11.9"; "3.13.0"]
  = [Some true; Some false; Some false; Some false].
Proof. reflexivity. Qed.

(** ** The declared metadata *)

(** C3: the [name] argument of every call of [setup] the script makes is
    the string "gilboost". *)
Theorem name_is_gilboost (env : Env) (args : list value) (kw : kwargs) :
  In (args, kw) (setup_calls env) ->
  kwarg "name" kw = Some (VStr "gilboost").
Proof.
  intros H. apply passed_to_setup in H as [_ ->]. reflexivity.
Qed.

Lemma name_is_gilboost_witness :
  In ([], setup_kwargs) (setup_calls env_ok)
  /\ kwarg "name" setup_kwargs = Some (VStr "gilboost").
Proof.
  assert (H : In ([], setup_kwargs) (setup_calls env_ok))
    by (simpl; left; reflexivity).
  split; [exact H | exact (name_is_gilboost env_ok [] setup_kwargs H)].
Defined.

(** C4: the [version] argument of every call of [setup] the script makes
    is the string "0.1.0". *)
Theorem version_is_0_1_0 (env : Env) (args : list value) (kw : kwargs) :
  In (args, kw) (setup_calls env) ->
  kwarg "version" kw = Some (VStr "0.1.0").
Proof.
  intros H. apply passed_to_setup in H as [_ ->]. reflexivity.
Qed.

Lemma version_is_0_1_0_witness :
  In ([], setup_kwargs) (setup_calls env_ok)
  /\ kwarg "version" setup_kwargs = Some (VStr "0.1.0").
Proof.
  assert (H : In ([], setup_kwargs) (setup_calls env_ok))
    by (simpl; left; reflexivity).
  split; [exact H | exact (version_is_0_1_0 env_ok [] setup_kwargs H)].
Defined.

(** C2: the [rust_extensions] argument of every call of [setup] is a list
    of length one: exactly one native extension target is declared. *)
Theorem one_rust_extension (env : Env) (args : list value) (kw : kwargs) :
  In (args, kw) (setup_calls env) ->
  exists exts,
    kwarg "rust_extensions" kw = Some (VList exts) /\ length exts = 1.
Proof.
  intros H. apply passed_to_setup in H as [_ ->].
  eexists. split; reflexivity.
Qed.

Lemma one_rust_extension_witness :
  In ([], setup_kwargs) (setup_calls env_ok)
  /\ exists exts,
       kwarg "rust_extensions" setup_kwargs = Some (VList exts)
       /\ length exts = 1.
Proof.
  assert (H : In ([], setup_kwargs) (setup_calls env_ok))
    by (simpl; left; reflexivity).
  split; [exact H | exact (one_rust_extension env_ok [] setup_kwargs H)].
Defined.

(** C6: the one extension descriptor passed to [setup] is constructed with
    [binding=Binding.PyO3]. *)
Theorem extension_bound_by_PyO3 (env : Env) (args : list value) (kw : kwargs) :
  In (args, kw) (setup_calls env) ->
  exists ext,
    kwarg "rust_extensions" kw = Some (VList [ext])
    /\ ext_binding ext = Some (VBinding PyO3).
Proof.
  intros H. apply passed_to_setup in H as [_ ->].
  eexists. split; reflexivity.
Qed.

Lemma extension_bound_by_PyO3_witness :
  In ([], setup_kwargs) (setup_calls env_ok)
  /\ exists ext,
       kwarg "rust_extensions" setup_kwargs = Some (VList [ext])
       /\ ext_binding ext = Some (VBinding PyO3).
Proof.
  assert (H : In ([], setup_kwargs) (setup_calls env_ok))
    by (simpl; left; reflexivity).
  split; [exact H | exact (extension_bound_by_PyO3 env_ok [] setup_kwargs H)].
Defined.

(** C8: the [zip_safe] argument of every call of [setup] is [False]. *)
Theorem zip_safe_is_False (env : Env) (args : list value) (kw : kwargs) :
  In (args, kw) (setup_calls env) ->
  kwarg "zip_safe" kw = Some (VBool false).
Proof.
  intros H. apply passed_to_setup in H as [_ ->]. reflexivity.
Qed.

Lemma zip_safe_is_False_witness :
  In ([], setup_kwargs) (setup_calls env_ok)
  /\ kwarg "zip_safe" setup_kwargs = Some (VBool false).
Proof.
  assert (H : In ([], setup_kwargs) (setup_calls env_ok))
    by (simpl; left; reflexivity).
  split; [exact H | exact (zip_safe_is_False env_ok [] setup_kwargs H)].
Defined.



(** ** The shape of the script *)

Lemma undeclared_keyword (k : string) :
  ~ In k declared_keywords -> kwarg k setup_kwargs = None.
Proof.
  unfold declared_keywords, setup_kwargs. cbn [In kwarg]. intros H.
  repeat match goal with
         | |- context [String.eqb ?a k] =>
             destruct (String.eqb_spec a k) as [E | _];
             [exfalso; apply H; rewrite E; tauto |]
         end.
  reflexivity.
Qed.

(** C5: a run makes at most one external call, and when both imports
    succeed it makes exactly one: [setup], with no positional argument and
    with exactly the keywords name, version, rust_extensions, zip_safe and
    python_requires.  No other keyword (entry_points, scripts, ...) is
    passed. *)
Theorem single_setup_invocation (env : Env) :
  length (trace env) <= 1
  /\ (imports_ok env = true ->
      exists kw,
        trace env = [Called "setup" [] kw]
        /\ keywords kw = declared_keywords
        /\ (forall k, ~ In k declared_keywords -> kwarg k kw = None)
        /\ kwarg "entry_points" kw = None
        /\ kwarg "scripts" kw = None).
Proof.
  split.
  - destruct (imports_ok env) eqn:E.
    + rewrite (trace_imports_ok env E). simpl. lia.
    + rewrite (trace_imports_fail env E). simpl. lia.
  - intros E. exists setup_kwargs.
    split; [exact (trace_imports_ok env E) |].
    split; [reflexivity |].
    split; [exact undeclared_keyword |].
    split; reflexivity.
Qed.

Lemma single_setup_invocation_witness :
  imports_ok env_ok = true
  /\ exists kw,
       trace env_ok = [Called "setup" [] kw]
       /\ keywords kw = declared_keywords
       /\ (forall k, ~ In k declared_keywords -> kwarg k kw = None)
       /\ kwarg "entry_points" kw = None
       /\ kwarg "scripts" kw = None.
Proof.
  split; [reflexivity |].
  apply (proj2 (single_setup_invocation env_ok)). reflexivity.
Defined.

(** C7: no run ends in an exception raised by the script's own code.  When
    both imports succeed the outcome is whatever the call of [setup]
    produces: normal completion if the tool accepts, and otherwise the
    tool's exception. *)
Theorem no_error_logic_in_script (env : Env) :
  failed_in_script (outcome env) = false
  /\ (imports_ok env = true ->
      setup_raises env [] setup_kwargs = None ->
      outcome env = inr tt)
  /\ (imports_ok env = true ->
      forall e, outcome env = inl e ->
      exists msg,
        e = CalleeError "setup" msg
        /\ setup_raises env [] setup_kwargs = Some msg).
Proof.
  destruct (imports_ok env) eqn:E.
  - rewrite (outcome_imports_ok env E).
    destruct (setup_raises env [] setup_kwargs) as [msg |].
    + split; [reflexivity |]. split; [discriminate |].
      intros _ e He. inversion He. exists msg. split; reflexivity.
    + split; [reflexivity |]. split; [reflexivity |].
      intros _ e He. discriminate He.
  - split.
    + destruct (outcome_imports_fail env E) as [-> | ->]; reflexivity.
    + split; discriminate.
Qed.

Lemma no_error_logic_in_script_witness :
  (imports_ok env_ok = true /\ setup_raises env_ok [] setup_kwargs = None)
  /\ failed_in_script (outcome env_ok) = false
  /\ outcome env_ok = inr tt.
Proof.
  split; [split; reflexivity |].
  destruct (no_error_logic_in_script env_ok) as [H1 [H2 _]].
  split; [exact H1 | apply H2; reflexivity].
Defined.

(** C10: the arguments passed to [setup] are the same constants in every
    run: two calls observed in any two worlds (whatever is installed,
    however the tool behaves, whatever the command line and environment
    variables are) carry identical arguments. *)
Theorem setup_arguments_deterministic
  (env1 env2 : Env) (c1 c2 : list value * kwargs) :
  In c1 (setup_calls env1) ->
  In c2 (setup_calls env2) ->
  c1 = c2 /\ c1 = ([], setup_kwargs).
Proof.
  destruct c1 as [a1 k1], c2 as [a2 k2]. intros H1 H2.
  apply passed_to_setup in H1 as [-> ->].
  apply passed_to_setup in H2 as [-> ->].
  split; reflexivity.
Qed.

Lemma setup_arguments_deterministic_witness :
  (In ([], setup_kwargs) (setup_calls env_ok)
   /\ In ([], setup_kwargs) (setup_calls env_strict))
  /\ ([], setup_kwargs) = ([], setup_kwargs) :> list value * kwargs.
Proof.
  assert (H1 : In ([], setup_kwargs) (setup_calls env_ok))
    by (simpl; left; reflexivity).
  assert (H2 : In ([], setup_kwargs) (setup_calls env_strict))
    by (simpl; left; reflexivity).
  split; [split; assumption |].
  exact (proj1 (setup_arguments_deterministic
                  env_ok env_strict _ _ H1 H2)).
Defined.

(** ** The interpreter constraint *)

(** C1: the [python_requires] string is "=3.12.0", with a single equals
    sign.  It is not the exact pin "==3.12.0": "=" is no comparison
    operator, the string is not a well-formed specifier, and it admits no
    version at all, 3.12.0 included. *)
Theorem python_requires_single_equals :
  (forall env args kw,
      In (args, kw) (setup_calls env) ->
      kwarg "python_requires" kw = Some (VStr "=3.12.0"))
  /\ python_requires = Some "=3.12.0"
  /\ "=3.12.0" <> Pep440.exact_pin "3.12.0"
  /\ Pep440.parse_specifier "=3.12.0" = None
  /\ (forall v, Pep440.admits "=3.12.0" v = None)
  /\ Pep440.admits (Pep440.exact_pin "3.12.0") "3.12.0" = Some true.
Proof.
  split.
  { intros env args kw H. apply passed_to_setup in H as [_ ->]. reflexivity. }
  split; [reflexivity |].
  split; [discriminate |].
  split; [reflexivity |].
  split; [intros v; reflexivity | reflexivity].
Qed.

(** With a packaging tool that validates the specifier, the script's call
    of [setup] is rejected. *)
Example strict_tool_rejects :
  outcome env_strict
  = inl (CalleeError "setup" "python_requires must be a valid specifier").
Proof. reflexivity. Qed.


(** With nothing installed the first import fails and [setup] is never
    reached. *)
Example bare_world_stops_at_import :
  trace env_bare = []
  /\ outcome env_bare
     = inl (ImportFailure "setuptools" (module_not_found "setuptools")).
Proof. split; reflexivity. Qed.

(** ** The install model: sanity *)

Lemma import_finds_installed (kw : kwargs) (m : string) :
  import_finds kw m = true -> In m (extension_modules kw).
Proof.
  unfold import_finds. intros H.
  apply andb_true_iff in H as [_ H].
  apply existsb_exists in H as [x [Hin Heq]].
  apply String.eqb_eq in Heq. subst x. exact Hin.
Qed.

(** Had the descriptor named a submodule, [import gilboost] would find
    nothing: what makes the import work is the equality of the two
    strings. *)
Example submodule_target_not_found :
  let kw := [ ("name", VStr "gilboost");
              ("rust_extensions",
                 VList [RustExtension [VStr "gilboost._core"]
                          [("binding", VBinding PyO3)]]) ] in
  extension_modules kw = ["gilboost._core"]
  /\ import_finds kw "gilboost" = false
  /\ import_finds kw "gilboost._core" = false.
Proof. repeat split; reflexivity. Qed.

(** ** Failing imports and a rejecting tool *)

(** X1: line 1 runs first.  When importing [setup] from setuptools fails,
    the run ends there with the exception that statement raised,
    unchanged, whatever the state of setuptools_rust, and no external
    call is made. *)
Theorem failed_setuptools_import_stops_first (env : Env) :
  importable env "setuptools" "setup" = false ->
  outcome env
  = inl (ImportFailure "setuptools"
           (import_exception env "setuptools" ["setup"]))
  /\ trace env = [].
Proof.
  intros H. unfold outcome, trace, setup_py, Script.bind, Script.import_from.
  simpl. rewrite H. simpl. split; reflexivity.
Qed.

Lemma failed_setuptools_import_stops_first_witness :
  importable env_no_distutils "setuptools" "setup" = false
  /\ outcome env_no_distutils
     = inl (ImportFailure "setuptools" (module_not_found "distutils"))
  /\ trace env_no_distutils = [].
Proof.
  split; [reflexivity |].
  apply (failed_setuptools_import_stops_first env_no_distutils).
  reflexivity.
Defined.

(** X2: when line 1 succeeds and importing [Binding] or [RustExtension]
    from setuptools_rust fails, the run ends with the exception line 2
    raised, unchanged, and [setup] is never called. *)
Theorem failed_setuptools_rust_import_stops_before_setup (env : Env) :
  importable env "setuptools" "setup" = true ->
  importable env "setuptools_rust" "Binding"
  && importable env "setuptools_rust" "RustExtension" = false ->
  outcome env
  = inl (ImportFailure "setuptools_rust"
           (import_exception env "setuptools_rust"
              ["Binding"; "RustExtension"]))
  /\ setup_calls env = [].
Proof.
  intros H1 H2.
  unfold setup_calls, outcome, trace, setup_py, Script.bind,
    Script.import_from.
  simpl. rewrite H1. simpl.
  destruct (importable env "setuptools_rust" "Binding");
    destruct (importable env "setuptools_rust" "RustExtension");
    simpl in *; try discriminate H2; split; reflexivity.
Qed.

Lemma failed_setuptools_rust_import_stops_before_setup_witness :
  (importable env_no_rust "setuptools" "setup" = true
   /\ importable env_no_rust "setuptools_rust" "Binding"
      && importable env_no_rust "setuptools_rust" "RustExtension" = false)
  /\ outcome env_no_rust
     = inl (ImportFailure "setuptools_rust"
              (module_not_found "setuptools_rust"))
  /\ setup_calls env_no_rust = [].
Proof.
  split; [split; reflexivity |].
  apply (failed_setuptools_rust_import_stops_before_setup env_no_rust);
    reflexivity.
Defined.

(** X3: the script does not catch what [setup] raises.  When both imports
    succeed and the tool rejects the call with message [msg], the run ends
    with that very exception, after exactly one call of [setup]. *)
Theorem setup_rejection_propagates (env : Env) (msg : string) :
  imports_ok env = true ->
  setup_raises env [] setup_kwargs = Some msg ->
  outcome env = inl (CalleeError "setup" msg)
  /\ setup_calls env = [([], setup_kwargs)].
Proof.
  intros Hi Hs. split.
  - rewrite (outcome_imports_ok env Hi), Hs. reflexivity.
  - unfold setup_calls. rewrite (trace_imports_ok env Hi). reflexivity.
Qed.

Lemma setup_rejection_propagates_witness :
  (imports_ok env_strict = true
   /\ setup_raises env_strict [] setup_kwargs
      = Some "python_requires must be a valid specifier")
  /\ outcome env_strict
     = inl (CalleeError "setup" "python_requires must be a valid specifier")
  /\ setup_calls env_strict = [([], setup_kwargs)].
Proof.
  split; [split; reflexivity |].
  apply (setup_rejection_propagates env_strict); reflexivity.
Defined.
